(** * AuthContext: the client-side session controller

    A shallow embedding of [frontend/client/src/context/AuthContext.js]:
    the React state of [AuthProvider], its mirror in [localStorage], the
    four auth operations ([signUp], [login], [logout],
    [refreshAccessToken]) and the response interceptor that retries a
    request once after a 401.

    JavaScript values are a small inductive type; numbers are the integer
    ones.  The answers of the network are inputs of the operations.  The
    platform functions the file calls but does not define ([JSON.stringify],
    [JSON.parse], [jwtDecode]) are the methods of a class. *)

From Stdlib Require Import Ascii String.
From stdpp Require Import base option list strings gmap pretty.
From Equations Require Import Equations.
From Equations.Prop Require Import Logic.

Set Warnings "-register-all".
Open Scope string_scope.
Open Scope Z_scope.

(** ** JavaScript values *)

Inductive Value : Type :=
| VUndefined
| VNull
| VBool (b : bool)
| VNum (n : Z)
| VStr (s : string)
| VObj (fields : list (string * Value))
| VArr (items : list Value).

(** [!!v] *)
Definition truthy (v : Value) : bool :=
  match v with
  | VUndefined | VNull => false
  | VBool b => b
  | VNum n => negb (n =? 0)
  | VStr s => negb (String.eqb s "")
  | VObj _ | VArr _ => true
  end.

(** [a || b] *)
Definition js_or (a b : Value) : Value := if truthy a then a else b.

Notation "a '|||' b" := (js_or a b) (at level 50, left associativity).

(** [a ?? b] *)
Definition nullish (v : Value) : bool :=
  match v with
  | VUndefined | VNull => true
  | _ => false
  end.

Definition js_coalesce (a b : Value) : Value := if nullish a then b else a.

Notation "a '???' b" := (js_coalesce a b) (at level 50, left associativity).

Fixpoint assoc (k : string) (fields : list (string * Value)) : Value :=
  match fields with
  | [] => VUndefined
  | (k', v) :: rest => if String.eqb k k' then v else assoc k rest
  end.

(** [v?.k], for the keys this file reads ([access_token], [user], [role],
    [username], [is_active], [detail], [message]): none of them is a
    property of a string, number, boolean or array, so only objects
    answer. *)
Definition get (v : Value) (k : string) : Value :=
  match v with
  | VObj fields => assoc k fields
  | _ => VUndefined
  end.

(** [a === b] against a boolean or string literal. *)
Definition strict_eq_bool (v : Value) (b : bool) : bool :=
  match v with
  | VBool b' => Bool.eqb b' b
  | _ => false
  end.

Definition strict_eq_str (v : Value) (s : string) : bool :=
  match v with
  | VStr s' => String.eqb s' s
  | _ => false
  end.

Fixpoint join (sep : string) (parts : list string) : string :=
  match parts with
  | [] => ""
  | [p] => p
  | p :: rest => p ++ sep ++ join sep rest
  end.

(** [String(v)]: what [localStorage.setItem], a template literal and
    [new Error(v)] make of a value. *)
Fixpoint to_string (v : Value) : string :=
  match v with
  | VUndefined => "undefined"
  | VNull => "null"
  | VBool true => "true"
  | VBool false => "false"
  | VNum n => pretty n
  | VStr s => s
  | VObj _ => "[object Object]"
  | VArr items =>
      join "," (map (fun x => if nullish x then "" else to_string x) items)
  end.

(** ** Platform functions *)

Class Platform := {
  (** [JSON.stringify(v)] for a value that is not [undefined] *)
  JSON_stringify : Value -> string;
  (** [JSON.parse(s)]; [None] when it throws *)
  JSON_parse : string -> option Value;
  (** [jwtDecode(token)]; [None] when it throws *)
  jwtDecode : Value -> option Value;
  (** [process.env.REACT_APP_API_URL]: a string, or [undefined] *)
  REACT_APP_API_URL : Value;
}.

(** ** Session state, storage and the log of effects *)

Record Session := {
  accessToken : Value;
  user : Value;
  role : Value;
  userName : Value;
}.

Record AuthState := {
  session : Session;
  loading : bool;
}.

Definition Unauthenticated : Session :=
  {| accessToken := VNull; user := VNull; role := VNull; userName := VNull |}.

(** The request configuration of axios, as far as the interceptor reads and
    writes it. *)
Record Config := {
  url : string;
  headers : gmap string string;
  _retry : bool;
}.

(** Every effect of the controller, in the order it happens: the state
    setters, the writes to storage, the requests and the navigation. *)
Inductive Event : Type :=
| SetAccessToken (v : Value)
| SetUser (v : Value)
| SetRole (v : Value)
| SetUserName (v : Value)
| SetLoading (b : bool)
| StorageSet (k v : string)
| StorageClear
| Post (target : string) (body : Value)
| Request (config : Config)
| Navigate (path : string).

Record World := {
  state : AuthState;
  localStorage : gmap string string;
  log : list Event;
}.

Definition emit (e : Event) (w : World) : World :=
  {| state := state w; localStorage := localStorage w; log := log w ++ [e] |}.

Definition with_session (f : Session -> Session) (w : World) : World :=
  {| state := {| session := f (session (state w)); loading := loading (state w) |};
     localStorage := localStorage w;
     log := log w |}.

Definition setAccessToken (v : Value) (w : World) : World :=
  emit (SetAccessToken v)
    (with_session (fun s => {| accessToken := v; user := user s;
                               role := role s; userName := userName s |}) w).

Definition setUser (v : Value) (w : World) : World :=
  emit (SetUser v)
    (with_session (fun s => {| accessToken := accessToken s; user := v;
                               role := role s; userName := userName s |}) w).

Definition setRole (v : Value) (w : World) : World :=
  emit (SetRole v)
    (with_session (fun s => {| accessToken := accessToken s; user := user s;
                               role := v; userName := userName s |}) w).

Definition setUserName (v : Value) (w : World) : World :=
  emit (SetUserName v)
    (with_session (fun s => {| accessToken := accessToken s; user := user s;
                               role := role s; userName := v |}) w).

Definition setLoading (b : bool) (w : World) : World :=
  emit (SetLoading b)
    {| state := {| session := session (state w); loading := b |};
       localStorage := localStorage w;
       log := log w |}.

(** [localStorage.getItem(k)]: the stored string, or [null]. *)
Definition getItem (k : string) (ls : gmap string string) : Value :=
  match ls !! k with
  | Some s => VStr s
  | None => VNull
  end.

(** [localStorage.setItem(k, v)] stores [String(v)]. *)
Definition setItem (k : string) (v : Value) (w : World) : World :=
  emit (StorageSet k (to_string v))
    {| state := state w;
       localStorage := <[k := to_string v]> (localStorage w);
       log := log w |}.

Definition clear (w : World) : World :=
  emit StorageClear {| state := state w; localStorage := ∅; log := log w |}.

Definition navigate (path : string) (w : World) : World := emit (Navigate path) w.

(** ** The network *)

Record Response := {
  status : Z;
  data : Value;
}.

(** What a [catch] block looks at: [error.response] and [error.message]. *)
Record Error := {
  response : option Response;
  message : string;
}.

Inductive Answer : Type :=
| Ok (res : Response)
| Fail (err : Error).

Inductive Result (A E : Type) : Type :=
| Fulfilled (a : A)
| Rejected (e : E).
Arguments Fulfilled {A E} a.
Arguments Rejected {A E} e.

(** [new Error(msg)] *)
Definition new_Error (msg : Value) : Error :=
  {| response := None; message := to_string msg |}.

(** [error.response?.data] *)
Definition response_data (e : Error) : Value :=
  match response e with
  | Some r => data r
  | None => VUndefined
  end.

Definition BASE_URL `{Platform} : string :=
  to_string (REACT_APP_API_URL ||| VStr "http://localhost:8000").

(** The same for all roles.  [getApiInstance(r)] only builds an axios
    instance on this base address; its requests are the [Post] events. *)
Definition getBaseURL `{Platform} (r : Value) : string := BASE_URL ++ "/api/auth".

Definition refresh_url `{Platform} : string := BASE_URL ++ "/api/auth/refresh-token".

Definition logout_url `{Platform} : string := getBaseURL VUndefined ++ "/logout".

(** An error as the response interceptor receives it: axios attaches the
    configuration of the request that failed. *)
Record AxiosError := {
  error : Error;
  config : Config;
}.

(** [error.response?.status === 401] *)
Definition status_is_401 (e : Error) : bool :=
  match response e with
  | Some r => status r =? 401
  | None => false
  end.

Record Credentials := {
  email : Value;
  password : Value;
  roleParam : Value;
}.

Record SignUpForm := {
  su_username : Value;
  su_email : Value;
  su_password : Value;
  su_role : Value;
}.

(** The locals of [login], as functions of [res.data]. *)
Definition userData (d : Value) : Value := get d "user" ||| VObj [].

Definition userrole (c : Credentials) (d : Value) : Value :=
  get (userData d) "role" ||| roleParam c ||| VNull.

Definition isActiveRaw (d : Value) : Value :=
  get d "is_active" ??? get (userData d) "is_active".

Definition isApproved (d : Value) : bool :=
  strict_eq_bool (isActiveRaw d) true || strict_eq_str (isActiveRaw d) "true".

(** ** The controller *)

Section Controller.
Context `{env : Platform}.

(** Initial state of the four [useState] hooks.  [JSON.parse] is not
    guarded there: [None] is the exception thrown while rendering. *)
Definition initial_state (ls : gmap string string) : option AuthState :=
  let storedUser := getItem "user" ls in
  u ← (if truthy storedUser then JSON_parse (to_string storedUser) else Some VNull);
  Some {| session := {| accessToken := getItem "accessToken" ls ||| VNull;
                        user := u;
                        role := getItem "role" ls ||| VNull;
                        userName := getItem "userName" ls ||| VNull |};
          loading := true |}.

Definition decodeToken (token : Value) : Value :=
  match jwtDecode token with
  | Some claims => claims
  | None => VNull
  end.

Definition signUp (form : SignUpForm) (ans : Answer) (w : World)
  : World * Result Value Error :=
  let w := emit (Post (getBaseURL (su_role form) ++ "/signup")
                      (VObj [("username", su_username form);
                             ("email", su_email form);
                             ("password", su_password form);
                             ("role", su_role form)])) w in
  match ans with
  | Ok res => (w, Fulfilled (data res))
  | Fail error =>
      let msg := get (response_data error) "message"
                 ||| get (response_data error) "detail"
                 ||| VStr (message error)
                 ||| VStr "Signup failed" in
      (w, Rejected (new_Error msg))
  end.

(** The [try] block of [login]. *)
Definition login_try (c : Credentials) (ans : Answer) (w : World)
  : World * Result Value Error :=
  let w := emit (Post (getBaseURL (roleParam c) ++ "/login")
                      (VObj [("username", email c);
                             ("password", password c)])) w in
  match ans with
  | Fail error => (w, Rejected error)
  | Ok res =>
      let token := get (data res) "access_token" in
      if negb (isApproved (data res))
      then (w, Rejected (new_Error (VStr "Not approved yet")))
      else
        let w := setAccessToken token w in
        let w := setUser (userData (data res)) w in
        let w := setUserName (get (userData (data res)) "username" ||| VNull) w in
        let w := setRole (userrole c (data res)) w in
        let w := setItem "accessToken" token w in
        let w := setItem "user" (VStr (JSON_stringify (userData (data res)))) w in
        let w := if truthy (userrole c (data res))
                 then setItem "role" (userrole c (data res)) w else w in
        let w := if truthy (get (userData (data res)) "username")
                 then setItem "userName" (get (userData (data res)) "username") w
                 else w in
        (w, Fulfilled (data res))
  end.

Definition login (c : Credentials) (ans : Answer) (w : World)
  : World * Result Value Error :=
  match login_try c ans w with
  | (w, Fulfilled v) => (w, Fulfilled v)
  | (w, Rejected error) =>
      let msg := get (response_data error) "detail"
                 ||| get (response_data error) "message"
                 ||| VStr (message error)
                 ||| VStr "Error logging in" in
      (w, Rejected (new_Error msg))
  end.

(** [logout] never rejects; [ans] is the answer to the [/logout] request,
    asked for only when a role is known. *)
Definition logout (ans : Answer) (w : World) : World :=
  let userRole := getItem "role" (localStorage w) ||| role (session (state w)) in
  let w := setAccessToken VNull w in
  let w := setUser VNull w in
  let w := setRole VNull w in
  let w := setUserName VNull w in
  let w := clear w in
  if negb (truthy userRole) then navigate "/login" w
  else
    let w := emit (Post (getBaseURL userRole ++ "/logout") VUndefined) w in
    match ans with
    | Ok _ => navigate "/login" w
    | Fail _ => navigate "/login" w
    end.

(** [refreshAccessToken] never rejects: it resolves with the new token,
    or with [null] after a forced [logout]. *)
Definition refreshAccessToken (refresh_ans logout_ans : Answer) (w : World)
  : World * Value :=
  let w := emit (Post refresh_url (VObj [])) w in
  match refresh_ans with
  | Fail _ => (logout logout_ans w, VNull)
  | Ok res =>
      let token := get (data res) "access_token" in
      if negb (truthy token) then (logout logout_ans w, VNull)
      else
        let w := setAccessToken token w in
        let decodedUser := decodeToken token ||| VNull in
        let w := if truthy decodedUser
                 then setItem "user" (VStr (JSON_stringify decodedUser))
                        (setUser decodedUser w)
                 else w in
        let w := setItem "accessToken" token w in
        (w, token)
  end.

(** The [useEffect] that restores the state after a reload. *)
Definition restore (w : World) : World :=
  let storedToken := getItem "accessToken" (localStorage w) in
  let storedUser := getItem "user" (localStorage w) in
  let w := if truthy storedToken then setAccessToken storedToken w else w in
  let w := if truthy storedUser
           then match JSON_parse (to_string storedUser) with
                | Some u => setUser u w
                | None => setUser VNull w
                end
           else w in
  let w := setRole (getItem "role" (localStorage w) ||| VNull) w in
  let w := setUserName (getItem "userName" (localStorage w) ||| VNull) w in
  setLoading false w.

(** A fresh process: first render, then the restoring effect. *)
Definition mount (ls : gmap string string) : option World :=
  st ← initial_state ls;
  Some (restore {| state := st; localStorage := ls; log := [] |}).

Definition isAuthenticated (s : Session) : bool :=
  truthy (accessToken s) && truthy (user s).

End Controller.

(** ** The response interceptor *)

(** [error.config._retry = true] *)
Definition mark_retry (c : Config) : Config :=
  {| url := url c; headers := headers c; _retry := true |}.

(** [error.config.headers["Authorization"] = `Bearer ${token}`] *)
Definition with_authorization (token : Value) (c : Config) : Config :=
  {| url := url c;
     headers := <["Authorization" := "Bearer " ++ to_string token]> (headers c);
     _retry := _retry c |}.

(** How many refreshes the marker still allows for a request. *)
Definition retries_left (c : Config) : nat := if _retry c then 0%nat else 1%nat.

Section Interceptor.
Context `{env : Platform}.
(** The server's answer to the [n]-th request sent through the instance,
    and its answers to the refresh and logout calls made meanwhile. *)
Variable srv : nat -> Config -> Answer.
Variables refresh_ans logout_ans : Answer.

(** [api(config)] on the instance that carries the interceptor: the request,
    then [response => response] or the rejection handler.  The handler's
    [catch] is not modelled: [refreshAccessToken] never rejects. *)
Equations? api (n : nat) (c : Config) (w : World)
  : World * Result Response AxiosError by wf (retries_left c) lt :=
  api n c w with srv n c := {
    | Ok res => (emit (Request c) w, Fulfilled res)
    | Fail e with inspect (status_is_401 e && negb (_retry c)) := {
        | exist _ true unmarked =>
            let r := refreshAccessToken refresh_ans logout_ans (emit (Request c) w) in
            if truthy (snd r)
            then api (S n) (with_authorization (snd r) (mark_retry c)) (fst r)
            else (fst r, Rejected {| error := e; config := mark_retry c |})
        | exist _ false _ =>
            (emit (Request c) w, Rejected {| error := e; config := c |}) } }.
Proof.
  apply andb_prop in unmarked as [_ unmarked].
  unfold retries_left; simpl.
  destruct (_retry c); [discriminate | lia].
Qed.

End Interceptor.

Definition is_refresh `{Platform} (e : Event) : bool :=
  match e with
  | Post target _ => String.eqb target refresh_url
  | _ => false
  end.

(** The number of refresh requests in a log. *)
Fixpoint refresh_calls `{Platform} (l : list Event) : nat :=
  match l with
  | [] => 0%nat
  | e :: rest => ((if is_refresh e then 1 else 0) + refresh_calls rest)%nat
  end.

(** ** A reference platform

    An executable instance of [Platform], used to run the controller on
    concrete inputs: [JSON.stringify] and [JSON.parse] on the values of the
    model (numbers are integers and strings are byte strings; a text that
    needs more does not parse), and [jwtDecode] as the [jwt-decode] package
    does it: the second dot-separated part of the token, base64url-decoded,
    then parsed as JSON. *)

Module Reference.

Definition dquote : ascii := ascii_of_nat 34.
Definition backslash : ascii := ascii_of_nat 92.

Definition char (n : nat) : string := String (ascii_of_nat n) EmptyString.

Definition hex_digit (n : nat) : string :=
  char (if (n <? 10)%nat then 48 + n else 87 + n)%nat.

Definition hex_value (c : ascii) : option nat :=
  let n := nat_of_ascii c in
  if (48 <=? n)%nat && (n <=? 57)%nat then Some (n - 48)%nat
  else if (97 <=? n)%nat && (n <=? 102)%nat then Some (n - 87)%nat
  else if (65 <=? n)%nat && (n <=? 70)%nat then Some (n - 55)%nat
  else None.

(** One character of a string, as [JSON.stringify] writes it. *)
Definition escape_char (c : ascii) : string :=
  let n := nat_of_ascii c in
  if Ascii.eqb c dquote || Ascii.eqb c backslash then String backslash (String c EmptyString)
  else if (n =? 8)%nat then String backslash "b"
  else if (n =? 9)%nat then String backslash "t"
  else if (n =? 10)%nat then String backslash "n"
  else if (n =? 12)%nat then String backslash "f"
  else if (n =? 13)%nat then String backslash "r"
  else if (n <? 32)%nat
       then String backslash "u00" ++ hex_digit (n / 16) ++ hex_digit (n mod 16)
  else String c EmptyString.

Fixpoint escape (s : string) : string :=
  match s with
  | EmptyString => EmptyString
  | String c rest => escape_char c ++ escape rest
  end.

Definition quote (s : string) : string :=
  String dquote (escape s ++ String dquote EmptyString).

Fixpoint stringify (v : Value) : string :=
  match v with
  | VUndefined => "undefined"
  | VNull => "null"
  | VBool true => "true"
  | VBool false => "false"
  | VNum n => pretty n
  | VStr s => quote s
  | VArr items =>
      "[" ++ join "," (map (fun x => match x with
                                     | VUndefined => "null"
                                     | _ => stringify x
                                     end) items) ++ "]"
  | VObj fields =>
      "{" ++ join ","
        ((fix members (fs : list (string * Value)) : list string :=
            match fs with
            | [] => []
            | (_, VUndefined) :: rest => members rest
            | (k, x) :: rest => (quote k ++ ":" ++ stringify x) :: members rest
            end) fields) ++ "}"
  end.

Definition is_space (c : ascii) : bool :=
  let n := nat_of_ascii c in
  (n =? 32)%nat || (n =? 9)%nat || (n =? 10)%nat || (n =? 13)%nat.

Fixpoint skip_ws (s : string) : string :=
  match s with
  | String c rest => if is_space c then skip_ws rest else s
  | EmptyString => s
  end.

(** The character a one-letter escape stands for. *)
Definition unescape (e : ascii) : option string :=
  if Ascii.eqb e dquote || Ascii.eqb e backslash || Ascii.eqb e "/"%char
  then Some (String e EmptyString)
  else if Ascii.eqb e "b"%char then Some (char 8)
  else if Ascii.eqb e "t"%char then Some (char 9)
  else if Ascii.eqb e "n"%char then Some (char 10)
  else if Ascii.eqb e "f"%char then Some (char 12)
  else if Ascii.eqb e "r"%char then Some (char 13)
  else None.

(** The characters after an opening quote, up to the closing one.  A [\u]
    escape is read when it stands for a byte. *)
Fixpoint parse_chars (s : string) (acc : string) : option (string * string) :=
  match s with
  | EmptyString => None
  | String c rest =>
      if Ascii.eqb c dquote then Some (acc, rest)
      else if Ascii.eqb c backslash then
        match rest with
        | String e rest' =>
            if Ascii.eqb e "u"%char then
              match rest' with
              | String h1 (String h2 (String h3 (String h4 rest''))) =>
                  match hex_value h1, hex_value h2, hex_value h3, hex_value h4 with
                  | Some 0%nat, Some 0%nat, Some a, Some b =>
                      parse_chars rest'' (acc ++ char (16 * a + b))
                  | _, _, _, _ => None
                  end
              | _ => None
              end
            else
              match unescape e with
              | Some x => parse_chars rest' (acc ++ x)
              | None => None
              end
        | EmptyString => None
        end
      else if (nat_of_ascii c <? 32)%nat then None
      else parse_chars rest (acc ++ String c EmptyString)
  end.

Definition digit_of (c : ascii) : option Z :=
  let n := nat_of_ascii c in
  if (48 <=? n)%nat && (n <=? 57)%nat then Some (Z.of_nat n - 48) else None.

Fixpoint parse_digits (s : string) (acc : Z) : Z * string :=
  match s with
  | String c rest =>
      match digit_of c with
      | Some d => parse_digits rest (10 * acc + d)
      | None => (acc, s)
      end
  | EmptyString => (acc, s)
  end.

(** An unsigned integer: no leading zero, no fraction, no exponent. *)
Definition parse_natural (s : string) : option (Z * string) :=
  match s with
  | String c rest =>
      match digit_of c with
      | Some d =>
          let '(n, rest') := parse_digits s 0 in
          let leading_zero :=
            match rest with
            | String c' _ => (d =? 0) && (if digit_of c' is Some _ then true else false)
            | EmptyString => false
            end in
          let continues :=
            match rest' with
            | String c' _ =>
                Ascii.eqb c' "."%char || Ascii.eqb c' "e"%char || Ascii.eqb c' "E"%char
            | EmptyString => false
            end in
          if leading_zero || continues then None else Some (n, rest')
      | None => None
      end
  | EmptyString => None
  end.

Definition parse_number (s : string) : option (Value * string) :=
  match s with
  | String c rest =>
      if Ascii.eqb c "-"%char
      then '(n, rest') ← parse_natural rest; Some (VNum (- n), rest')
      else '(n, rest') ← parse_natural s; Some (VNum n, rest')
  | EmptyString => None
  end.

Definition strip_prefix (p s : string) : option string :=
  if String.prefix p s
  then Some (String.substring (String.length p) (String.length s - String.length p) s)
  else None.

Fixpoint parse_value (fuel : nat) (s : string) : option (Value * string) :=
  match fuel with
  | O => None
  | S fuel =>
      let s := skip_ws s in
      match s with
      | EmptyString => None
      | String c rest =>
          if Ascii.eqb c dquote then
            '(str, rest') ← parse_chars rest EmptyString; Some (VStr str, rest')
          else if Ascii.eqb c "["%char then
            match skip_ws rest with
            | String c' rest' =>
                if Ascii.eqb c' "]"%char then Some (VArr [], rest')
                else parse_items fuel rest []
            | EmptyString => None
            end
          else if Ascii.eqb c "{"%char then
            match skip_ws rest with
            | String c' rest' =>
                if Ascii.eqb c' "}"%char then Some (VObj [], rest')
                else parse_members fuel rest []
            | EmptyString => None
            end
          else
            match strip_prefix "null" s, strip_prefix "true" s, strip_prefix "false" s with
            | Some rest', _, _ => Some (VNull, rest')
            | _, Some rest', _ => Some (VBool true, rest')
            | _, _, Some rest' => Some (VBool false, rest')
            | _, _, _ => parse_number s
            end
      end
  end
with parse_items (fuel : nat) (s : string) (acc : list Value) : option (Value * string) :=
  match fuel with
  | O => None
  | S fuel =>
      '(x, rest) ← parse_value fuel s;
      match skip_ws rest with
      | String c rest' =>
          if Ascii.eqb c ","%char then parse_items fuel rest' (acc ++ [x])
          else if Ascii.eqb c "]"%char then Some (VArr (acc ++ [x]), rest')
          else None
      | EmptyString => None
      end
  end
with parse_members (fuel : nat) (s : string) (acc : list (string * Value))
  : option (Value * string) :=
  match fuel with
  | O => None
  | S fuel =>
      match skip_ws s with
      | String q rest0 =>
          if Ascii.eqb q dquote then
            '(k, rest1) ← parse_chars rest0 EmptyString;
            match skip_ws rest1 with
            | String colon rest2 =>
                if Ascii.eqb colon ":"%char then
                  '(x, rest3) ← parse_value fuel rest2;
                  match skip_ws rest3 with
                  | String c rest' =>
                      if Ascii.eqb c ","%char
                      then parse_members fuel rest' (acc ++ [(k, x)])
                      else if Ascii.eqb c "}"%char
                      then Some (VObj (acc ++ [(k, x)]), rest')
                      else None
                  | EmptyString => None
                  end
                else None
            | EmptyString => None
            end
          else None
      | EmptyString => None
      end
  end.

Definition parse (s : string) : option Value :=
  '(v, rest) ← parse_value (2 * String.length s + 2) s;
  match skip_ws rest with
  | EmptyString => Some v
  | String _ _ => None
  end.

(** Base64url: the value of one character of the alphabet. *)
Definition sextet (c : ascii) : option Z :=
  let n := Z.of_nat (nat_of_ascii c) in
  if (65 <=? n) && (n <=? 90) then Some (n - 65)
  else if (97 <=? n) && (n <=? 122) then Some (n - 71)
  else if (48 <=? n) && (n <=? 57) then Some (n + 4)
  else if (n =? 45) || (n =? 43) then Some 62
  else if (n =? 95) || (n =? 47) then Some 63
  else None.

Definition byte_char (n : Z) : string :=
  String (ascii_of_nat (Z.to_nat (n mod 256))) EmptyString.

Fixpoint decode_sextets (l : list Z) : option string :=
  match l with
  | a :: b :: c :: d :: rest =>
      let n := a * 262144 + b * 4096 + c * 64 + d in
      tail ← decode_sextets rest;
      Some (byte_char (n / 65536) ++ byte_char (n / 256) ++ byte_char n ++ tail)
  | [a; b; c] =>
      let n := a * 4096 + b * 64 + c in
      Some (byte_char (n / 1024) ++ byte_char (n / 4))
  | [a; b] => Some (byte_char ((a * 64 + b) / 16))
  | [_] => None
  | [] => Some EmptyString
  end.

(** The padding a token may carry at its end. *)
Fixpoint strip_padding (l : list ascii) : list ascii :=
  match l with
  | [] => []
  | c :: rest =>
      if forallb (Ascii.eqb "="%char) l && (length l <=? 2)%nat then []
      else c :: strip_padding rest
  end.

Definition base64UrlDecode (s : string) : option string :=
  if (String.length s mod 4 =? 1)%nat then None
  else l ← mapM sextet (strip_padding (list_ascii_of_string s));
       decode_sextets l.

Fixpoint split_dots (s : string) (cur : string) : list string :=
  match s with
  | EmptyString => [cur]
  | String c rest =>
      if Ascii.eqb c "."%char then cur :: split_dots rest EmptyString
      else split_dots rest (cur ++ String c EmptyString)
  end.

Definition decode (token : Value) : option Value :=
  match token with
  | VStr t =>
      part ← split_dots t EmptyString !! 1%nat;
      decoded ← base64UrlDecode part;
      parse decoded
  | _ => None
  end.

#[export] Instance platform : Platform :=
  {| JSON_stringify := stringify; JSON_parse := parse; jwtDecode := decode;
     REACT_APP_API_URL := VUndefined |}.

End Reference.

(** ** The claims, as the specification words them *)

(** The [is_active] field of a login response: the top-level one or, when
    absent there ([undefined] or [null]), the one of the nested profile. *)
Definition is_active_field (d : Value) : Value :=
  if nullish (get d "is_active") then get (get d "user") "is_active"
  else get d "is_active".

(** The first present (truthy) value of a priority list. *)
Fixpoint first_available (candidates : list Value) : Value :=
  match candidates with
  | [] => VUndefined
  | [v] => v
  | v :: rest => if truthy v then v else first_available rest
  end.

(** Neither or both of [accessToken] and [user] are held. *)
Definition paired (s : Session) : Prop :=
  truthy (accessToken s) = truthy (user s).

(** A refresh that gets no token: a failed request, or a response without a
    (truthy) [access_token]. *)
Definition no_token (ans : Answer) : bool :=
  match ans with
  | Fail _ => true
  | Ok res => negb (truthy (get (data res) "access_token"))
  end.

(** What [logout] does before it talks to the server. *)
Definition clearing : list Event :=
  [SetAccessToken VNull; SetUser VNull; SetRole VNull; SetUserName VNull;
   StorageClear].

(** A new installation: nothing stored, nobody signed in. *)
Definition fresh : World :=
  {| state := {| session := Unauthenticated; loading := false |};
     localStorage := ∅;
     log := [] |}.

(** The server-provided detail and message of a failed call. *)
Definition server_detail (e : Error) : Value := get (response_data e) "detail".
Definition server_message (e : Error) : Value := get (response_data e) "message".

(** The priority the specification gives for the message of a failed auth
    call: detail, message, transport message, generic fallback. *)
Definition detail_first (generic : string) (e : Error) : Value :=
  first_available
    [server_detail e; server_message e; VStr (message e); VStr generic].

(** The same with the first two swapped. *)
Definition message_first (generic : string) (e : Error) : Value :=
  first_available
    [server_message e; server_detail e; VStr (message e); VStr generic].

(** The login scenario of the specification. *)
Definition scenario_credentials : Credentials :=
  {| email := VStr "a@b.com"; password := VStr "x"; roleParam := VStr "student" |}.

Definition scenario_profile : Value :=
  VObj [("username", VStr "a"); ("role", VStr "student");
        ("is_active", VBool true)].

Definition scenario_response : Response :=
  {| status := 200;
     data := VObj [("access_token", VStr "t1"); ("user", scenario_profile)] |}.

Definition scenario_session : Session :=
  {| accessToken := VStr "t1"; user := scenario_profile;
     role := VStr "student"; userName := VStr "a" |}.

(** Answers used to run the controller. *)
Definition unauthorized : Error :=
  {| response := Some {| status := 401;
                         data := VObj [("detail", VStr "Not authenticated")] |};
     message := "Request failed with status code 401" |}.

Definition network_error : Error :=
  {| response := None; message := "Network Error" |}.

Definition token_response (token : string) : Response :=
  {| status := 200; data := VObj [("access_token", VStr token)] |}.

Definition pending_profile : Response :=
  {| status := 200;
     data := VObj [("access_token", VStr "t1");
                   ("user", VObj [("username", VStr "a");
                                  ("role", VStr "student");
                                  ("is_active", VBool false)])] |}.

Definition conflict : Error :=
  {| response := Some {| status := 400;
                         data := VObj [("detail", VStr "Email already registered");
                                       ("message", VStr "Bad Request")] |};
     message := "Request failed with status code 400" |}.

Definition signup_form : SignUpForm :=
  {| su_username := VStr "a"; su_email := VStr "a@b.com";
     su_password := VStr "x"; su_role := VStr "student" |}.

(** A value that [login] mirrors faithfully under a storage key: a
    non-empty string, which it writes, or nothing, with nothing stored under
    that key before. *)
Definition mirrored (v : Value) (before : option string) : Prop :=
  (exists s, v = VStr s /\ s <> "") \/ (truthy v = false /\ before = None).

(** The storage [login] leaves after an approved response with data [d]. *)
Definition saved `{Platform} (c : Credentials) (d : Value)
  (ls : gmap string string) : gmap string string :=
  let ls := <["accessToken" := to_string (get d "access_token")]> ls in
  let ls := <["user" := JSON_stringify (userData d)]> ls in
  let ls := if truthy (userrole c d)
            then <["role" := to_string (userrole c d)]> ls else ls in
  if truthy (get (userData d) "username")
  then <["userName" := to_string (get (userData d) "username")]> ls else ls.

(** A second account, whose profile has no [username]. *)
Definition teacher_credentials : Credentials :=
  {| email := VStr "t@b.com"; password := VStr "y"; roleParam := VStr "teacher" |}.

Definition nameless_response : Response :=
  {| status := 200;
     data := VObj [("access_token", VStr "t2");
                   ("user", VObj [("role", VStr "teacher");
                                  ("is_active", VBool true)])] |}.

(** Worlds reached on the reference platform: after the scenario login on
    a new installation, and after a second login, of the account without
    [username], on top of it. *)
Definition signed_in : World :=
  fst (login (env := Reference.platform)
         scenario_credentials (Ok scenario_response) fresh).

Definition signed_in_again : World :=
  fst (login (env := Reference.platform)
         teacher_credentials (Ok nameless_response) signed_in).

Definition empty_response : Response := {| status := 200; data := VObj [] |}.

Definition courses_request : Config :=
  {| url := "/courses"; headers := ∅; _retry := false |}.

(** A server that answers every request with the same 401. *)
Definition always_401 : nat -> Config -> Answer := fun _ _ => Fail unauthorized.

(** ** Further vocabulary *)

(** The four keys the controller keeps in storage. *)
Definition auth_keys : list string := ["accessToken"; "user"; "role"; "userName"].

(** The number of requests sent through the intercepted instance. *)
Fixpoint request_count (l : list Event) : nat :=
  match l with
  | [] => 0%nat
  | Request _ :: rest => S (request_count rest)
  | _ :: rest => request_count rest
  end.

Definition is_object (v : Value) : bool :=
  match v with
  | VObj _ => true
  | _ => false
  end.

(** A role is known to [logout]: stored as a non-empty string, or held in
    the state. *)
Definition role_known (w : World) : Prop :=
  (exists s, localStorage w !! "role" = Some s /\ s <> "")
  \/ truthy (role (session (state w))) = true.

(** A validation failure as FastAPI reports it: [detail] is a list of
    objects. *)
Definition validation_error : Error :=
  {| response :=
       Some {| status := 422;
               data := VObj [("detail",
                              VArr [VObj [("msg", VStr "field required")];
                                    VObj [("msg", VStr "invalid email")]])] |};
     message := "Request failed with status code 422" |}.

(** A token that decodes, and its claims. *)
Definition jwt : string :=
  "eyJhbGciOiJIUzI1NiIsInR5cCI6IkpXVCJ9.eyJzdWIiOiJhIiwicm9sZSI6InN0dWRlbnQiLCJleHAiOjE3MDAwMDAwMDB9.c2ln".

Definition jwt_claims : Value :=
  VObj [("sub", VStr "a"); ("role", VStr "student"); ("exp", VNum 1700000000)].

(** An approved response that carries no [access_token]. *)
Definition tokenless_response : Response :=
  {| status := 200; data := VObj [("user", scenario_profile)] |}.

Definition forbidden : Error :=
  {| response := Some {| status := 403;
                         data := VObj [("detail", VStr "Not enough permissions")] |};
     message := "Request failed with status code 403" |}.

(** A server that rejects the first request with a 401 and accepts the
    next ones. *)
Definition expired_once : nat -> Config -> Answer :=
  fun n _ => match n with
             | O => Fail unauthorized
             | S _ => Ok {| status := 200; data := VArr [] |}
             end.

(** Another 401 than [unauthorized]. *)
Definition revoked : Error :=
  {| response := Some {| status := 401;
                         data := VObj [("detail", VStr "Token revoked")] |};
     message := "Request failed with status code 401" |}.

(** A server that answers the first request [unauthorized] and every later
    one [revoked]. *)
Definition expired_then_revoked : nat -> Config -> Answer :=
  fun n _ => match n with
             | O => Fail unauthorized
             | S _ => Fail revoked
             end.

(** * Properties *)

Lemma get_or_empty (v : Value) (k : string) : get (v ||| VObj []) k = get v k.
Proof.
  unfold js_or. destruct v as [| | [] | n | s | fs | l]; simpl; try reflexivity.
  - destruct (n =? 0); reflexivity.
  - destruct (String.eqb s ""); reflexivity.
Qed.

Lemma userData_truthy (d : Value) : truthy (userData d) = true.
Proof.
  unfold userData, js_or.
  destruct (truthy (get d "user")) eqn:E; [exact E | reflexivity].
Qed.

Lemma isActiveRaw_field (d : Value) : isActiveRaw d = is_active_field d.
Proof.
  unfold isActiveRaw, is_active_field, js_coalesce, userData.
  rewrite get_or_empty. reflexivity.
Qed.

(** C3: a login response is approved exactly when its [is_active] field,
    read at the top level or, when absent ([undefined] or [null]) there, in
    the nested [user] profile, is the boolean [true] or the string ["true"];
    absent at both levels, it is not approved. *)
Theorem approved_iff_is_active (d : Value) :
  (isApproved d = true <->
   is_active_field d = VBool true \/ is_active_field d = VStr "true")
  /\ (nullish (get d "is_active") = true ->
      nullish (get (get d "user") "is_active") = true ->
      isApproved d = false).
Proof.
  unfold isApproved. rewrite isActiveRaw_field. split.
  - split.
    + intros Happ. apply orb_prop in Happ as [Hb | Hs].
      * left. destruct (is_active_field d) as [| | [] | | | |]; simpl in Hb;
          (discriminate || reflexivity).
      * right. destruct (is_active_field d); simpl in Hs; try discriminate.
        apply String.eqb_eq in Hs. congruence.
    + intros [-> | ->]; reflexivity.
  - intros Htop Hnested. unfold is_active_field. rewrite Htop.
    destruct (get (get d "user") "is_active"); simpl in Hnested;
      (discriminate || reflexivity).
Qed.

Section Properties.
Context `{env : Platform}.

Lemma logout_session (ans : Answer) (w : World) :
  session (state (logout ans w)) = Unauthenticated.
Proof.
  unfold logout.
  destruct (truthy _); simpl; [destruct ans |]; reflexivity.
Qed.

Lemma logout_storage (ans : Answer) (w : World) :
  localStorage (logout ans w) = ∅.
Proof.
  unfold logout.
  destruct (truthy _); simpl; [destruct ans |]; reflexivity.
Qed.

Lemma logout_log (ans : Answer) (w : World) :
  log (logout ans w) =
  (log w ++ clearing ++
    (if truthy (getItem "role" (localStorage w) ||| role (session (state w)))
     then [Post logout_url VUndefined; Navigate "/login"]
     else [Navigate "/login"]))%list.
Proof.
  unfold logout.
  destruct (truthy _); simpl; [destruct ans |]; simpl;
    rewrite <- !app_assoc; reflexivity.
Qed.

(** C5: whatever the server answers to the logout request, [logout] ends
    with the session [Unauthenticated] and the storage empty, so none of
    the four keys is left; and in the order of effects the four setters and
    the clearing of the storage come first, the request (made only when a
    role was known) after them. *)
Theorem logout_clears_before_request (ans : Answer) (w : World) :
  session (state (logout ans w)) = Unauthenticated
  /\ localStorage (logout ans w) = ∅
  /\ Forall (fun k => getItem k (localStorage (logout ans w)) = VNull)
       ["accessToken"; "user"; "role"; "userName"]
  /\ exists rest,
       log (logout ans w) = (log w ++ clearing ++ rest)%list
       /\ (rest = [Navigate "/login"]
           \/ rest = [Post logout_url VUndefined; Navigate "/login"]).
Proof.
  split; [apply logout_session |].
  split; [apply logout_storage |].
  split.
  - rewrite logout_storage. repeat constructor.
  - rewrite logout_log. destruct (truthy _); eexists; split; eauto.
Qed.

Lemma refresh_without_token (refresh_ans logout_ans : Answer) (w : World) :
  no_token refresh_ans = true ->
  refreshAccessToken refresh_ans logout_ans w
  = (logout logout_ans (emit (Post refresh_url (VObj [])) w), VNull).
Proof.
  intros Hno. unfold refreshAccessToken.
  destruct refresh_ans as [res | err]; simpl in Hno; [rewrite Hno |]; reflexivity.
Qed.

(** C6: a refresh that fails at the network, or whose response has no
    [access_token], resolves with [null] after running [logout]: the session
    is [Unauthenticated], [isAuthenticated()] is false and the storage is
    empty, whatever the logout request is answered. *)
Theorem refresh_without_token_logs_out
  (refresh_ans logout_ans : Answer) (w : World) :
  no_token refresh_ans = true ->
  let r := refreshAccessToken refresh_ans logout_ans w in
  snd r = VNull
  /\ fst r = logout logout_ans (emit (Post refresh_url (VObj [])) w)
  /\ session (state (fst r)) = Unauthenticated
  /\ isAuthenticated (session (state (fst r))) = false
  /\ localStorage (fst r) = ∅.
Proof.
  intros Hno r. subst r.
  rewrite (refresh_without_token refresh_ans logout_ans w Hno). simpl.
  rewrite logout_session, logout_storage. auto.
Qed.

(** C4: a login whose response is not approved is rejected with the message
    ["Not approved yet"], and neither the state nor the storage changes. *)
Theorem login_not_approved (c : Credentials) (res : Response) (w : World) :
  isApproved (data res) = false ->
  snd (login c (Ok res) w) = Rejected (new_Error (VStr "Not approved yet"))
  /\ message (new_Error (VStr "Not approved yet")) = "Not approved yet"
  /\ state (fst (login c (Ok res) w)) = state w
  /\ localStorage (fst (login c (Ok res) w)) = localStorage w.
Proof.
  intros Hno. unfold login, login_try. rewrite Hno. simpl. auto.
Qed.

(** C7: the login scenario: with the response [scenario_response], the login
    of [scenario_credentials] is fulfilled with the response data, leaves the
    session [scenario_session] and [isAuthenticated()] true, whatever the
    state was before. *)
Theorem login_scenario (w : World) :
  snd (login scenario_credentials (Ok scenario_response) w)
  = Fulfilled (data scenario_response)
  /\ session (state (fst (login scenario_credentials (Ok scenario_response) w)))
     = scenario_session
  /\ isAuthenticated
       (session (state (fst (login scenario_credentials (Ok scenario_response) w))))
     = true.
Proof. repeat split. Qed.

Lemma or_chain_first_available (a b c d : Value) :
  a ||| b ||| c ||| d = first_available [a; b; c; d].
Proof.
  unfold js_or; simpl.
  destruct (truthy a) eqn:Ea; rewrite ?Ea; [reflexivity |].
  destruct (truthy b) eqn:Eb; rewrite ?Eb; [reflexivity |].
  destruct (truthy c); reflexivity.
Qed.

(** What [first_available] returns: the first truthy candidate, or the last
    candidate when none is truthy. *)
Lemma first_available_first (before after : list Value) (v : Value) :
  Forall (fun x => truthy x = false) before ->
  truthy v = true ->
  first_available (before ++ v :: after) = v.
Proof.
  intros Hbefore Hv. induction Hbefore as [| x l Hx _ IH]; simpl.
  - destruct after; [reflexivity | rewrite Hv; reflexivity].
  - rewrite Hx. destruct (l ++ v :: after)%list eqn:E; [| exact IH].
    destruct l; discriminate.
Qed.

(** C8, as the code has it: a failed login raises the first available of
    server detail, server message, transport message and ["Error logging in"];
    a failed sign-up raises the first available of server message, server
    detail, transport message and ["Signup failed"]. *)
Theorem failure_message_priority
  (c : Credentials) (form : SignUpForm) (e : Error) (w : World) :
  snd (login c (Fail e) w)
  = Rejected (new_Error (detail_first "Error logging in" e))
  /\ snd (signUp form (Fail e) w)
     = Rejected (new_Error (message_first "Signup failed" e)).
Proof.
  unfold login, login_try, signUp, detail_first, message_first,
    server_detail, server_message; simpl.
  rewrite !or_chain_first_available. split; reflexivity.
Qed.

(** C10: when the refresh obtains a token that [jwtDecode] rejects, the call
    resolves with that token; [accessToken] is set in the state and written
    to storage, and these are its only effects after the request: [user],
    [role] and [userName] keep their value and the stored [user] is not
    written. *)
Theorem refresh_undecodable_keeps_user
  (res : Response) (logout_ans : Answer) (w : World) :
  truthy (get (data res) "access_token") = true ->
  jwtDecode (get (data res) "access_token") = None ->
  let token := get (data res) "access_token" in
  let r := refreshAccessToken (Ok res) logout_ans w in
  snd r = token
  /\ accessToken (session (state (fst r))) = token
  /\ localStorage (fst r) !! "accessToken" = Some (to_string token)
  /\ user (session (state (fst r))) = user (session (state w))
  /\ localStorage (fst r) !! "user" = localStorage w !! "user"
  /\ role (session (state (fst r))) = role (session (state w))
  /\ userName (session (state (fst r))) = userName (session (state w))
  /\ log (fst r)
     = (log w ++ [Post refresh_url (VObj []); SetAccessToken token;
                  StorageSet "accessToken" (to_string token)])%list.
Proof.
  intros Htoken Hdecode token r. subst r token.
  unfold refreshAccessToken, decodeToken. rewrite Htoken, Hdecode. simpl.
  repeat split.
  - apply lookup_insert_eq.
  - apply lookup_insert_ne. discriminate.
  - rewrite <- !app_assoc. reflexivity.
Qed.

Lemma refresh_calls_app (l1 l2 : list Event) :
  refresh_calls (l1 ++ l2) = (refresh_calls l1 + refresh_calls l2)%nat.
Proof. induction l1 as [| e l1 IH]; simpl; [reflexivity | rewrite IH; lia]. Qed.

Lemma eqb_same_prefix (p s1 s2 : string) :
  String.eqb (p ++ s1) (p ++ s2) = String.eqb s1 s2.
Proof.
  induction p as [| a p IH]; [reflexivity |].
  change (String.eqb (String a (p ++ s1)) (String a (p ++ s2)) = String.eqb s1 s2).
  cbn [String.eqb]. rewrite Ascii.eqb_refl. exact IH.
Qed.

Lemma append_assoc (p s1 s2 : string) : (p ++ s1) ++ s2 = p ++ (s1 ++ s2).
Proof.
  induction p as [| a p IH]; [reflexivity |].
  change (String a ((p ++ s1) ++ s2) = String a (p ++ (s1 ++ s2))).
  rewrite IH. reflexivity.
Qed.

Lemma logout_is_not_refresh : String.eqb logout_url refresh_url = false.
Proof.
  unfold logout_url, refresh_url, getBaseURL.
  rewrite append_assoc, eqb_same_prefix. reflexivity.
Qed.

(** Counting the refresh requests of a log whose events are known. *)
Ltac count_refreshes :=
  rewrite ?refresh_calls_app; cbn [refresh_calls is_refresh clearing];
  rewrite ?logout_is_not_refresh, ?String.eqb_refl; lia.

Lemma logout_no_refresh (ans : Answer) (w : World) :
  refresh_calls (log (logout ans w)) = refresh_calls (log w).
Proof.
  rewrite logout_log. destruct (truthy _); count_refreshes.
Qed.

(** Every call of [refreshAccessToken] sends exactly one refresh request. *)
Lemma refresh_sends_one (refresh_ans logout_ans : Answer) (w : World) :
  refresh_calls (log (fst (refreshAccessToken refresh_ans logout_ans w)))
  = S (refresh_calls (log w)).
Proof.
  unfold refreshAccessToken.
  assert (Hpost : refresh_calls (log (emit (Post refresh_url (VObj [])) w))
                  = S (refresh_calls (log w))).
  { simpl. count_refreshes. }
  destruct refresh_ans as [res | err]; simpl fst.
  - destruct (truthy (get (data res) "access_token")); simpl fst.
    + destruct (truthy (decodeToken _ ||| VNull)); simpl; count_refreshes.
    + rewrite logout_no_refresh. exact Hpost.
  - rewrite logout_no_refresh. exact Hpost.
Qed.

Section Retry.
Variable srv : nat -> Config -> Answer.
Variables refresh_ans logout_ans : Answer.

(** The interceptor, unfolded once. *)
Lemma api_step (n : nat) (c : Config) (w : World) :
  api srv refresh_ans logout_ans n c w =
  match srv n c with
  | Ok res => (emit (Request c) w, Fulfilled res)
  | Fail e =>
      if status_is_401 e && negb (_retry c) then
        let r := refreshAccessToken refresh_ans logout_ans (emit (Request c) w) in
        if truthy (snd r)
        then api srv refresh_ans logout_ans (S n)
               (with_authorization (snd r) (mark_retry c)) (fst r)
        else (fst r, Rejected {| error := e; config := mark_retry c |})
      else (emit (Request c) w, Rejected {| error := e; config := c |})
  end.
Proof.
  funelim (api srv refresh_ans logout_ans n c w);
    match goal with Hsrv : srv _ _ = _ |- _ => rewrite Hsrv end;
    try match goal with Hguard : _ && _ = _ |- _ => rewrite Hguard end;
    reflexivity.
Qed.

(** A request that carries the marker goes to the server once and its
    outcome is passed on as it is. *)
Lemma api_marked (n : nat) (c : Config) (w : World) :
  _retry c = true ->
  api srv refresh_ans logout_ans n c w =
  (emit (Request c) w,
   match srv n c with
   | Ok res => Fulfilled res
   | Fail e => Rejected {| error := e; config := c |}
   end).
Proof.
  intros Hmarked. rewrite api_step.
  destruct (srv n c) as [res | e]; [reflexivity |].
  rewrite Hmarked, andb_false_r. reflexivity.
Qed.

Lemma api_marked_no_refresh (n : nat) (c : Config) (w : World) :
  _retry c = true ->
  refresh_calls (log (fst (api srv refresh_ans logout_ans n c w)))
  = refresh_calls (log w).
Proof.
  intros Hmarked. rewrite api_marked by exact Hmarked. simpl.
  count_refreshes.
Qed.

Lemma api_refresh_bound (n : nat) (c : Config) (w : World) :
  (refresh_calls (log (fst (api srv refresh_ans logout_ans n c w)))
   <= S (refresh_calls (log w)))%nat.
Proof.
  assert (Hreq : refresh_calls (log (emit (Request c) w)) = refresh_calls (log w)).
  { simpl. count_refreshes. }
  rewrite api_step.
  destruct (srv n c) as [res | e]; [simpl fst; lia |].
  destruct (status_is_401 e && negb (_retry c)); [| simpl fst; lia].
  cbv zeta.
  destruct (truthy _).
  - rewrite api_marked_no_refresh by reflexivity.
    rewrite refresh_sends_one. lia.
  - simpl fst. rewrite refresh_sends_one. lia.
Qed.

(** C1, as the code has it: a request sent through the instance makes at
    most one refresh call, and none when it already carries the marker.
    When the request is answered 401, the refresh yields a token and the
    retried request (marked, with the new [Authorization] header) fails
    again, exactly one refresh call is made and the caller gets the error
    that answered the retry, as it is, with the configuration of the retried
    request: the original error only when both attempts are answered alike.
    When the refresh yields no token, the caller gets the 401 error of its
    request, after the one refresh call and the forced logout. *)
Theorem one_refresh_per_request (n : nat) (c : Config) (w : World) :
  (refresh_calls (log (fst (api srv refresh_ans logout_ans n c w)))
   <= S (refresh_calls (log w)))%nat
  /\ (_retry c = true ->
      refresh_calls (log (fst (api srv refresh_ans logout_ans n c w)))
      = refresh_calls (log w))
  /\ (forall (e0 e1 : Error) (res : Response),
       let retried :=
         with_authorization (get (data res) "access_token") (mark_retry c) in
       _retry c = false ->
       status_is_401 e0 = true ->
       srv n c = Fail e0 ->
       refresh_ans = Ok res ->
       truthy (get (data res) "access_token") = true ->
       srv (S n) retried = Fail e1 ->
       snd (api srv refresh_ans logout_ans n c w)
       = Rejected {| error := e1; config := retried |}
       /\ refresh_calls (log (fst (api srv refresh_ans logout_ans n c w)))
          = S (refresh_calls (log w)))
  /\ (forall e : Error,
       _retry c = false ->
       status_is_401 e = true ->
       srv n c = Fail e ->
       no_token refresh_ans = true ->
       snd (api srv refresh_ans logout_ans n c w)
       = Rejected {| error := e; config := mark_retry c |}
       /\ refresh_calls (log (fst (api srv refresh_ans logout_ans n c w)))
          = S (refresh_calls (log w))
       /\ session (state (fst (api srv refresh_ans logout_ans n c w)))
          = Unauthenticated).
Proof.
  split; [apply api_refresh_bound |].
  split; [apply api_marked_no_refresh |].
  split.
  - intros e0 e1 res retried Hunmarked H401 Hfirst Hrefresh Htoken Hsecond.
    assert (Hresult : snd (refreshAccessToken refresh_ans logout_ans
                             (emit (Request c) w))
                      = get (data res) "access_token").
    { rewrite Hrefresh. unfold refreshAccessToken. rewrite Htoken. reflexivity. }
    rewrite api_step, Hfirst, H401, Hunmarked. cbv zeta.
    rewrite Hresult, Htoken. fold retried.
    rewrite api_marked by reflexivity. rewrite Hsecond. simpl.
    split; [reflexivity |].
    rewrite refresh_calls_app, refresh_sends_one.
    simpl. count_refreshes.
  - intros e Hunmarked H401 Hfirst Hnone.
    rewrite api_step, Hfirst, H401, Hunmarked. cbv zeta.
    rewrite (refresh_without_token _ _ _ Hnone). simpl.
    split; [reflexivity |].
    split; [| apply logout_session].
    rewrite logout_no_refresh. simpl. count_refreshes.
Qed.

End Retry.

(** C2, as the code has it: [isAuthenticated()] is true exactly when
    [accessToken] and [user] are both present.  [logout], and a refresh that
    resolves with [null], leave neither; a rejected login leaves the session
    as it was; a fulfilled login whose response carries an [access_token]
    leaves both.  A refresh that resolves with a token leaves [accessToken]
    present and sets [user] to the decoded claims when there are any;
    otherwise [user] stays as it was.  The initial reconstruction takes
    [accessToken] from storage whether or not a [user] is stored. *)
Theorem session_pairing :
  (forall s : Session,
      isAuthenticated s = true
      <-> truthy (accessToken s) = true /\ truthy (user s) = true)
  /\ (forall ans w, session (state (logout ans w)) = Unauthenticated)
  /\ (forall c ans w e,
        snd (login c ans w) = Rejected e ->
        session (state (fst (login c ans w))) = session (state w))
  /\ (forall c ans w d,
        snd (login c ans w) = Fulfilled d ->
        truthy (get d "access_token") = true ->
        truthy (accessToken (session (state (fst (login c ans w))))) = true
        /\ truthy (user (session (state (fst (login c ans w))))) = true)
  /\ (forall refresh_ans logout_ans w,
        let r := refreshAccessToken refresh_ans logout_ans w in
        if truthy (snd r)
        then truthy (accessToken (session (state (fst r)))) = true
             /\ user (session (state (fst r)))
                = (if truthy (decodeToken (snd r)) then decodeToken (snd r)
                   else user (session (state w)))
        else session (state (fst r)) = Unauthenticated)
  /\ (forall ls w,
        mount ls = Some w ->
        truthy (accessToken (session (state w)))
        = truthy (getItem "accessToken" ls)
        /\ (truthy (getItem "user" ls) = false ->
            user (session (state w)) = VNull)).
Proof.
  split.
  { intros s. unfold isAuthenticated. apply andb_true_iff. }
  split; [apply logout_session |].
  split.
  { intros c ans w e. unfold login, login_try.
    destruct ans as [res | err]; [| reflexivity].
    destruct (isApproved (data res)); [discriminate | reflexivity]. }
  split.
  { intros c ans w d. unfold login, login_try.
    destruct ans as [res | err]; [| discriminate].
    destruct (isApproved (data res)); [| discriminate].
    simpl. intros [= <-] Htoken.
    destruct (truthy (userrole c (data res)));
      destruct (truthy (get (userData (data res)) "username")); simpl;
      rewrite Htoken, userData_truthy; auto. }
  split.
  { intros refresh_ans logout_ans w. cbv zeta. unfold refreshAccessToken.
    destruct refresh_ans as [res | err]; simpl; [| apply logout_session].
    destruct (truthy (get (data res) "access_token")) eqn:Htoken; simpl;
      [| apply logout_session].
    rewrite Htoken. unfold js_or.
    destruct (truthy (decodeToken (get (data res) "access_token"))) eqn:Hclaims;
      rewrite ?Hclaims; simpl; auto. }
  intros ls w. unfold mount, initial_state.
  destruct (truthy (getItem "user" ls)) eqn:Huser; simpl.
  - destruct (JSON_parse (to_string (getItem "user" ls))) as [u |] eqn:Hparse;
      simpl; [| discriminate].
    intros [= <-]. unfold restore; simpl. rewrite Huser, Hparse.
    split; [| discriminate].
    unfold js_or. destruct (truthy (getItem "accessToken" ls)) eqn:Htoken;
      simpl; rewrite ?Htoken; reflexivity.
  - intros [= <-]. unfold restore; simpl. rewrite Huser.
    unfold js_or. destruct (truthy (getItem "accessToken" ls)) eqn:Htoken;
      simpl; rewrite ?Htoken; split; reflexivity.
Qed.

Lemma truthy_nonempty (s : string) : s <> "" -> truthy (VStr s) = true.
Proof.
  intros Hs. simpl. destruct (String.eqb_spec s ""); [contradiction | reflexivity].
Qed.

Lemma login_approved (c : Credentials) (res : Response) (w : World) :
  isApproved (data res) = true ->
  snd (login c (Ok res) w) = Fulfilled (data res)
  /\ session (state (fst (login c (Ok res) w)))
     = {| accessToken := get (data res) "access_token";
          user := userData (data res);
          role := userrole c (data res);
          userName := get (userData (data res)) "username" ||| VNull |}
  /\ localStorage (fst (login c (Ok res) w))
     = saved c (data res) (localStorage w).
Proof.
  intros Happ. unfold login, login_try, saved. rewrite Happ. simpl.
  destruct (truthy (userrole c (data res)));
    destruct (truthy (get (userData (data res)) "username")); auto.
Qed.

Lemma saved_accessToken (c : Credentials) (d : Value) (ls : gmap string string) :
  saved c d ls !! "accessToken" = Some (to_string (get d "access_token")).
Proof.
  unfold saved.
  destruct (truthy (userrole c d)); destruct (truthy (get (userData d) "username"));
    repeat (rewrite lookup_insert_ne by discriminate); apply lookup_insert_eq.
Qed.

Lemma saved_user (c : Credentials) (d : Value) (ls : gmap string string) :
  saved c d ls !! "user" = Some (JSON_stringify (userData d)).
Proof.
  unfold saved.
  destruct (truthy (userrole c d)); destruct (truthy (get (userData d) "username"));
    repeat (rewrite lookup_insert_ne by discriminate); apply lookup_insert_eq.
Qed.

Lemma saved_role (c : Credentials) (d : Value) (ls : gmap string string) :
  saved c d ls !! "role"
  = if truthy (userrole c d) then Some (to_string (userrole c d)) else ls !! "role".
Proof.
  unfold saved.
  destruct (truthy (userrole c d)); destruct (truthy (get (userData d) "username"));
    repeat (rewrite lookup_insert_ne by discriminate);
    try apply lookup_insert_eq; reflexivity.
Qed.

Lemma saved_userName (c : Credentials) (d : Value) (ls : gmap string string) :
  saved c d ls !! "userName"
  = if truthy (get (userData d) "username")
    then Some (to_string (get (userData d) "username")) else ls !! "userName".
Proof.
  unfold saved.
  destruct (truthy (userrole c d)); destruct (truthy (get (userData d) "username"));
    repeat (rewrite lookup_insert_ne by discriminate);
    try apply lookup_insert_eq; reflexivity.
Qed.

Lemma or_null_idem (a : Value) : a ||| VNull ||| VNull = a ||| VNull.
Proof.
  unfold js_or. destruct (truthy a) eqn:E; [rewrite E |]; reflexivity.
Qed.

(** What the reload reads back for a mirrored value. *)
Lemma mirrored_read (v : Value) (before : option string) :
  mirrored v before ->
  match (if truthy v then Some (to_string v) else before) with
  | Some s => VStr s
  | None => VNull
  end ||| VNull = v ||| VNull.
Proof.
  intros [(s & -> & Hs) | (Hfalsy & ->)].
  - rewrite truthy_nonempty by exact Hs. reflexivity.
  - rewrite Hfalsy. unfold js_or. rewrite Hfalsy. reflexivity.
Qed.

(** A fresh process on a storage that holds a token and a readable profile. *)
Lemma mount_reads (ls : gmap string string) (t json : string) (u : Value) :
  getItem "accessToken" ls = VStr t ->
  t <> "" ->
  getItem "user" ls = VStr json ->
  json <> "" ->
  JSON_parse json = Some u ->
  exists w',
    mount ls = Some w'
    /\ session (state w')
       = {| accessToken := VStr t; user := u;
            role := getItem "role" ls ||| VNull;
            userName := getItem "userName" ls ||| VNull |}
    /\ loading (state w') = false.
Proof.
  intros Rtoken Ht Ruser Hjson Hparse.
  unfold mount, initial_state.
  rewrite Rtoken, Ruser, (truthy_nonempty _ Hjson).
  cbn [to_string]. rewrite Hparse. cbn [mbind option_bind].
  eexists. split; [reflexivity |].
  unfold restore. cbn [localStorage].
  rewrite Rtoken, Ruser, (truthy_nonempty _ Hjson), (truthy_nonempty _ Ht).
  cbn [to_string]. rewrite Hparse.
  split; reflexivity.
Qed.

(** X17: after an approved login whose [access_token] is a non-empty
    string and whose role and username are each a non-empty string, or
    nothing with nothing stored under that key before (as after a logout),
    a fresh process started on the storage rebuilds the same four session
    fields, provided [JSON.parse] reads back what [JSON.stringify] wrote for
    the profile. *)
Theorem login_save_then_load
  (c : Credentials) (res : Response) (w : World) (t : string) :
  isApproved (data res) = true ->
  get (data res) "access_token" = VStr t ->
  t <> "" ->
  mirrored (userrole c (data res)) (localStorage w !! "role") ->
  mirrored (get (userData (data res)) "username") (localStorage w !! "userName") ->
  JSON_stringify (userData (data res)) <> "" ->
  JSON_parse (JSON_stringify (userData (data res))) = Some (userData (data res)) ->
  exists w',
    mount (localStorage (fst (login c (Ok res) w))) = Some w'
    /\ session (state w') = session (state (fst (login c (Ok res) w)))
    /\ loading (state w') = false.
Proof.
  intros Happ Htoken Ht Hrole Hname Hjson Hparse.
  destruct (login_approved c res w Happ) as (_ & -> & ->).
  set (ls := saved c (data res) (localStorage w)).
  assert (Rtoken : getItem "accessToken" ls = VStr t).
  { unfold getItem, ls. rewrite saved_accessToken, Htoken. reflexivity. }
  assert (Ruser : getItem "user" ls = VStr (JSON_stringify (userData (data res)))).
  { unfold getItem, ls. rewrite saved_user. reflexivity. }
  assert (Rrole : getItem "role" ls ||| VNull = userrole c (data res)).
  { unfold getItem, ls. rewrite saved_role, (mirrored_read _ _ Hrole).
    apply or_null_idem. }
  assert (Rname : getItem "userName" ls ||| VNull
                  = get (userData (data res)) "username" ||| VNull).
  { unfold getItem, ls. rewrite saved_userName. apply (mirrored_read _ _ Hname). }
  destruct (mount_reads ls t _ _ Rtoken Ht Ruser Hjson Hparse)
    as (w' & Hmount & Hsession & Hloading).
  exists w'. rewrite Hmount, Hsession, Rrole, Rname, Htoken. auto.
Qed.

End Properties.

(** * Further properties of the controller *)

Section Further.
Context `{env : Platform}.

(** X1: [signUp], whatever it is answered, and a [login] that is rejected,
    for whatever reason, change neither the state nor the storage. *)
Theorem unsuccessful_calls_change_nothing :
  (forall form ans w,
      state (fst (signUp form ans w)) = state w
      /\ localStorage (fst (signUp form ans w)) = localStorage w)
  /\ (forall c ans w e,
        snd (login c ans w) = Rejected e ->
        state (fst (login c ans w)) = state w
        /\ localStorage (fst (login c ans w)) = localStorage w).
Proof.
  split.
  - intros form [res | err] w; split; reflexivity.
  - intros c [res | err] w e; unfold login, login_try.
    + destruct (isApproved (data res)); [discriminate | split; reflexivity].
    + split; reflexivity.
Qed.

(** X2: [login] is fulfilled exactly when the server answered with success
    and the response is approved; its value is then the response data. *)
Theorem login_fulfilled_iff_approved (c : Credentials) (ans : Answer) (w : World)
  (v : Value) :
  snd (login c ans w) = Fulfilled v
  <-> exists res, ans = Ok res /\ isApproved (data res) = true /\ v = data res.
Proof.
  unfold login, login_try. split.
  - destruct ans as [res | err]; [| discriminate].
    destruct (isApproved (data res)) eqn:Happ; [| discriminate].
    simpl. intros [= <-]. exists res. auto.
  - intros (res & -> & Happ & ->). rewrite Happ. reflexivity.
Qed.

(** X3: the session an approved login leaves does not depend on the world
    it started from, and its role is the profile's role when the profile
    has one, else the role the caller passed, else [null]. *)
Theorem login_session_from_response
  (c : Credentials) (res : Response) (w1 w2 : World) :
  isApproved (data res) = true ->
  session (state (fst (login c (Ok res) w1)))
  = session (state (fst (login c (Ok res) w2)))
  /\ role (session (state (fst (login c (Ok res) w1))))
     = first_available [get (get (data res) "user") "role"; roleParam c; VNull].
Proof.
  intros Happ.
  destruct (login_approved c res w1 Happ) as (_ & -> & _).
  destruct (login_approved c res w2 Happ) as (_ & -> & _).
  split; [reflexivity |]. simpl.
  unfold userrole, userData. rewrite get_or_empty. unfold js_or.
  destruct (truthy (get (get (data res) "user") "role")) eqn:Hrole;
    rewrite ?Hrole; [reflexivity |].
  destruct (truthy (roleParam c)) eqn:Hparam; rewrite ?Hparam; reflexivity.
Qed.

Lemma saved_other (c : Credentials) (d : Value) (ls : gmap string string)
  (k : string) :
  k ∉ auth_keys -> saved c d ls !! k = ls !! k.
Proof.
  intros Hk. unfold auth_keys in Hk.
  rewrite !not_elem_of_cons in Hk. destruct Hk as (H1 & H2 & H3 & H4 & _).
  unfold saved.
  destruct (truthy (userrole c d)); destruct (truthy (get (userData d) "username"));
    repeat (rewrite lookup_insert_ne by congruence); reflexivity.
Qed.

(** X4: an approved login writes [accessToken] and [user], touches no key
    outside the four of the controller and removes none. *)
Theorem login_storage_frame (c : Credentials) (res : Response) (w : World) :
  isApproved (data res) = true ->
  let ls := localStorage (fst (login c (Ok res) w)) in
  ls !! "accessToken" = Some (to_string (get (data res) "access_token"))
  /\ ls !! "user" = Some (JSON_stringify (userData (data res)))
  /\ (forall k, k ∉ auth_keys -> ls !! k = localStorage w !! k)
  /\ (forall k, is_Some (localStorage w !! k) -> is_Some (ls !! k)).
Proof.
  intros Happ ls. subst ls.
  destruct (login_approved c res w Happ) as (_ & _ & ->).
  split; [apply saved_accessToken |].
  split; [apply saved_user |].
  split; [intros k; apply saved_other |].
  intros k Hk. unfold saved.
  destruct (truthy (userrole c (data res)));
    destruct (truthy (get (userData (data res)) "username"));
    repeat (rewrite lookup_insert_is_Some'; right); exact Hk.
Qed.

(** X5: when the server's [detail] is a list, a failed login raises
    [String(detail)]: the items joined by commas, each object among them
    shown as ["[object Object]"]. *)
Theorem login_message_of_detail_list
  (c : Credentials) (e : Error) (w : World) (items : list Value) :
  server_detail e = VArr items ->
  snd (login c (Fail e) w) = Rejected (new_Error (VArr items))
  /\ (forallb is_object items = true ->
      message (new_Error (VArr items))
      = join "," (map (fun _ => "[object Object]") items)).
Proof.
  intros Hdetail. split.
  - unfold login, login_try. simpl. unfold server_detail in Hdetail.
    rewrite Hdetail. reflexivity.
  - intros Hobjects. clear Hdetail. simpl. f_equal.
    induction items as [| x items IH]; [reflexivity |].
    simpl in Hobjects. apply andb_prop in Hobjects as [Hx Hrest].
    destruct x; try discriminate. simpl. rewrite (IH Hrest). reflexivity.
Qed.

Lemma role_known_truthy (w : World) :
  truthy (getItem "role" (localStorage w) ||| role (session (state w))) = true
  <-> role_known w.
Proof.
  unfold role_known, getItem, js_or.
  destruct (localStorage w !! "role") as [s |] eqn:Hstored.
  - destruct (truthy (VStr s)) eqn:Hs.
    + rewrite Hs. split; [| reflexivity]. intros _. left. exists s.
      split; [reflexivity |]. intros ->. discriminate.
    + split; [auto |]. intros [(s' & [= <-] & Hne) | Hstate]; [| exact Hstate].
      rewrite (truthy_nonempty _ Hne) in Hs. discriminate.
  - simpl. split; [auto |]. intros [(s' & [=] & _) | Hstate]. exact Hstate.
Qed.

(** X6: [logout] sends its request to the server exactly when a role is
    known, stored or in the state; in both cases the navigation to the
    login page is its last effect. *)
Theorem logout_asks_server_iff_role_known (ans : Answer) (w : World) :
  (role_known w ->
   log (logout ans w)
   = (log w ++ clearing ++ [Post logout_url VUndefined; Navigate "/login"])%list)
  /\ (~ role_known w ->
      log (logout ans w) = (log w ++ clearing ++ [Navigate "/login"])%list).
Proof.
  rewrite <- role_known_truthy, logout_log.
  destruct (truthy _); split; intros Hknown;
    first [reflexivity | discriminate | contradiction Hknown; reflexivity].
Qed.

(** X7: a second [logout] in a row sends nothing to the server: it only
    clears again and navigates. *)
Theorem logout_twice (first second : Answer) (w : World) :
  log (logout second (logout first w))
  = (log (logout first w) ++ clearing ++ [Navigate "/login"])%list
  /\ session (state (logout second (logout first w))) = Unauthenticated
  /\ localStorage (logout second (logout first w)) = ∅.
Proof.
  split; [| split; [apply logout_session | apply logout_storage]].
  rewrite (logout_log second), logout_storage, logout_session. reflexivity.
Qed.

(** X8: a process started on the storage that [logout] leaves begins signed
    out, with [loading] off. *)
Theorem logout_then_reload (ans : Answer) (w : World) :
  exists w',
    mount (localStorage (logout ans w)) = Some w'
    /\ session (state w') = Unauthenticated
    /\ loading (state w') = false
    /\ isAuthenticated (session (state w')) = false.
Proof.
  rewrite logout_storage. eexists. split; [reflexivity |]. auto.
Qed.

(** X9: a refresh that obtains a token which decodes to claims works from
    any world, signed in or not: it resolves with the token, sets and stores
    [accessToken], replaces [user] by the claims in the state and in
    storage, and leaves [role], [userName] and every other stored key as
    they were; it does nothing else, in particular it does not navigate. *)
Theorem refresh_replaces_user_by_claims
  (res : Response) (logout_ans : Answer) (w : World) (claims : Value) :
  truthy (get (data res) "access_token") = true ->
  jwtDecode (get (data res) "access_token") = Some claims ->
  truthy claims = true ->
  let token := get (data res) "access_token" in
  let r := refreshAccessToken (Ok res) logout_ans w in
  snd r = token
  /\ session (state (fst r))
     = {| accessToken := token; user := claims;
          role := role (session (state w));
          userName := userName (session (state w)) |}
  /\ localStorage (fst r) !! "accessToken" = Some (to_string token)
  /\ localStorage (fst r) !! "user" = Some (JSON_stringify claims)
  /\ (forall k, k <> "accessToken" -> k <> "user" ->
      localStorage (fst r) !! k = localStorage w !! k)
  /\ isAuthenticated (session (state (fst r))) = true
  /\ log (fst r)
     = (log w ++ [Post refresh_url (VObj []); SetAccessToken token;
                  SetUser claims; StorageSet "user" (JSON_stringify claims);
                  StorageSet "accessToken" (to_string token)])%list.
Proof.
  intros Htoken Hdecode Hclaims token r. subst r token.
  unfold refreshAccessToken, decodeToken. rewrite Htoken, Hdecode. simpl.
  unfold js_or. rewrite Hclaims. simpl. rewrite Hclaims. simpl.
  repeat split.
  - apply lookup_insert_eq.
  - rewrite lookup_insert_ne by discriminate. apply lookup_insert_eq.
  - intros k Htok Huser. rewrite !lookup_insert_ne by congruence. reflexivity.
  - unfold isAuthenticated. simpl. rewrite Htoken, Hclaims. reflexivity.
  - rewrite <- !app_assoc. reflexivity.
Qed.

Lemma restore_keeps_initial (ls : gmap string string) :
  (fun w => session (state w)) <$> mount ls = session <$> initial_state ls.
Proof.
  unfold mount, initial_state.
  destruct (truthy (getItem "user" ls)) eqn:Huser.
  - destruct (JSON_parse (to_string (getItem "user" ls))) as [u |] eqn:Hparse;
      [| reflexivity].
    cbn [mbind option_bind fmap option_fmap option_map].
    unfold restore. cbn [localStorage]. rewrite Huser, Hparse. unfold js_or.
    destruct (truthy (getItem "accessToken" ls)); reflexivity.
  - cbn [mbind option_bind fmap option_fmap option_map].
    unfold restore. cbn [localStorage]. rewrite Huser. unfold js_or.
    destruct (truthy (getItem "accessToken" ls)); reflexivity.
Qed.

(** X10: the restoring effect changes nothing of the session: after the
    first render and the effect, the session is the one the initial state
    read from storage, and [loading] is off. *)
Theorem mount_session_is_initial (ls : gmap string string) :
  (fun w => session (state w)) <$> mount ls = session <$> initial_state ls
  /\ (fun w => loading (state w)) <$> mount ls = (fun _ => false) <$> initial_state ls.
Proof.
  split; [apply restore_keeps_initial |].
  unfold mount. destruct (initial_state ls) as [st |]; [| reflexivity].
  cbn [mbind option_bind fmap option_fmap option_map]. unfold restore.
  reflexivity.
Qed.

(** X11: the provider fails to start exactly when a non-empty [user] is
    stored that [JSON.parse] rejects: the initial state parses it
    unguarded. *)
Theorem mount_fails_iff_user_corrupt (ls : gmap string string) :
  mount ls = None
  <-> exists s, ls !! "user" = Some s /\ s <> "" /\ JSON_parse s = None.
Proof.
  unfold mount, initial_state, getItem.
  destruct (ls !! "user") as [s |] eqn:Hstored; simpl.
  - destruct (String.eqb_spec s "") as [-> | Hne]; simpl.
    + split; [discriminate |]. intros (s' & [= <-] & Hs' & _). contradiction.
    + destruct (JSON_parse s) eqn:Hparse; simpl.
      * split; [discriminate |]. intros (s' & [= <-] & _ & Hnone). congruence.
      * split; [| reflexivity]. intros _. exists s. auto.
  - split; [discriminate |]. intros (s' & [=] & _).
Qed.

Lemma getItem_blank (k k' : string) (ls : gmap string string) :
  getItem k' (<[k := ""]> ls) = getItem k' (delete k ls)
  \/ (getItem k' (<[k := ""]> ls) = VStr "" /\ getItem k' (delete k ls) = VNull).
Proof.
  unfold getItem. destruct (decide (k = k')) as [<- | Hne].
  - right. rewrite lookup_insert_eq, lookup_delete_eq. auto.
  - left. rewrite lookup_insert_ne, lookup_delete_ne by exact Hne. reflexivity.
Qed.

(** X12: a key stored as the empty string is read like a key that is not
    stored: the process starts with the same session either way. *)
Theorem blank_key_reads_as_missing (k : string) (ls : gmap string string) :
  (fun w => session (state w)) <$> mount (<[k := ""]> ls)
  = (fun w => session (state w)) <$> mount (delete k ls).
Proof.
  rewrite !restore_keeps_initial.
  unfold initial_state.
  destruct (getItem_blank k "user" ls) as [-> | [-> ->]];
    destruct (getItem_blank k "accessToken" ls) as [-> | [-> ->]];
    destruct (getItem_blank k "role" ls) as [-> | [-> ->]];
    destruct (getItem_blank k "userName" ls) as [-> | [-> ->]];
    reflexivity.
Qed.

(** X13: an approved login whose response has no [access_token] leaves
    [isAuthenticated()] false, but stores the text ["undefined"] as the
    token: the next process reads it as a token and, the profile being
    stored too, starts with [isAuthenticated()] true. *)
Theorem tokenless_login_authenticates_after_reload
  (c : Credentials) (res : Response) (w : World) :
  isApproved (data res) = true ->
  get (data res) "access_token" = VUndefined ->
  JSON_stringify (userData (data res)) <> "" ->
  JSON_parse (JSON_stringify (userData (data res))) = Some (userData (data res)) ->
  isAuthenticated (session (state (fst (login c (Ok res) w)))) = false
  /\ exists w',
       mount (localStorage (fst (login c (Ok res) w))) = Some w'
       /\ accessToken (session (state w')) = VStr "undefined"
       /\ isAuthenticated (session (state w')) = true.
Proof.
  intros Happ Htoken Hjson Hparse.
  destruct (login_approved c res w Happ) as (_ & -> & ->).
  split.
  { unfold isAuthenticated. simpl. rewrite Htoken. reflexivity. }
  set (ls := saved c (data res) (localStorage w)).
  assert (Rtoken : getItem "accessToken" ls = VStr "undefined").
  { unfold getItem, ls. rewrite saved_accessToken, Htoken. reflexivity. }
  assert (Ruser : getItem "user" ls = VStr (JSON_stringify (userData (data res)))).
  { unfold getItem, ls. rewrite saved_user. reflexivity. }
  destruct (mount_reads ls "undefined" _ _ Rtoken ltac:(discriminate) Ruser Hjson Hparse)
    as (w' & Hmount & Hsession & _).
  exists w'. split; [exact Hmount |]. rewrite Hsession.
  split; [reflexivity |].
  unfold isAuthenticated. simpl. apply userData_truthy.
Qed.

Lemma request_count_app (l1 l2 : list Event) :
  request_count (l1 ++ l2) = (request_count l1 + request_count l2)%nat.
Proof.
  induction l1 as [| e l1 IH]; [reflexivity |].
  destruct e; simpl; rewrite IH; reflexivity.
Qed.

Lemma logout_no_request (ans : Answer) (w : World) :
  request_count (log (logout ans w)) = request_count (log w).
Proof.
  rewrite logout_log, !request_count_app.
  destruct (truthy _); simpl; lia.
Qed.

Lemma refresh_no_request (refresh_ans logout_ans : Answer) (w : World) :
  request_count (log (fst (refreshAccessToken refresh_ans logout_ans w)))
  = request_count (log w).
Proof.
  assert (Hpost : request_count (log (emit (Post refresh_url (VObj [])) w))
                  = request_count (log w)).
  { simpl. rewrite request_count_app. simpl. lia. }
  unfold refreshAccessToken.
  destruct refresh_ans as [res | err]; simpl fst.
  - destruct (truthy (get (data res) "access_token")); simpl fst.
    + destruct (truthy (decodeToken _ ||| VNull)); simpl;
        rewrite !request_count_app; simpl; lia.
    + rewrite logout_no_request. exact Hpost.
  - rewrite logout_no_request. exact Hpost.
Qed.

Section Requests.
Variable srv : nat -> Config -> Answer.
Variables refresh_ans logout_ans : Answer.

(** X14: the interceptor is transparent for a request that succeeds and for
    one that fails with anything but a 401 (another status, or no response
    at all): the answer reaches the caller as it is and nothing else
    happens, no refresh, no change of state or storage. *)
Theorem interceptor_passes_other_answers (n : nat) (c : Config) (w : World) :
  (forall res,
      srv n c = Ok res ->
      api srv refresh_ans logout_ans n c w = (emit (Request c) w, Fulfilled res))
  /\ (forall e,
        srv n c = Fail e ->
        status_is_401 e = false ->
        api srv refresh_ans logout_ans n c w
        = (emit (Request c) w, Rejected {| error := e; config := c |})).
Proof.
  split.
  - intros res Hsrv. rewrite api_step, Hsrv. reflexivity.
  - intros e Hsrv Hstatus. rewrite api_step, Hsrv, Hstatus. reflexivity.
Qed.

(** X15: when a request is answered 401, the refresh yields a token and the
    retried request succeeds, the caller gets the answer to the retry; the
    retry differs from the request by the marker and by its [Authorization]
    header, ["Bearer "] followed by the new token; one refresh was made and
    the state holds the new token. *)
Theorem interceptor_retries_with_new_token
  (n : nat) (c : Config) (w : World) (e : Error) (res answer : Response) :
  let token := get (data res) "access_token" in
  let retried := with_authorization token (mark_retry c) in
  _retry c = false ->
  status_is_401 e = true ->
  srv n c = Fail e ->
  refresh_ans = Ok res ->
  truthy token = true ->
  srv (S n) retried = Ok answer ->
  let r := api srv refresh_ans logout_ans n c w in
  snd r = Fulfilled answer
  /\ accessToken (session (state (fst r))) = token
  /\ last (log (fst r)) = Some (Request retried)
  /\ headers retried !! "Authorization" = Some ("Bearer " ++ to_string token)
  /\ (forall h, h <> "Authorization" -> headers retried !! h = headers c !! h)
  /\ url retried = url c
  /\ refresh_calls (log (fst r)) = S (refresh_calls (log w))
  /\ request_count (log (fst r)) = S (S (request_count (log w))).
Proof.
  intros token retried Hunmarked H401 Hfirst Hrefresh Htoken Hsecond r.
  subst r.
  assert (Hresult : snd (refreshAccessToken refresh_ans logout_ans
                           (emit (Request c) w)) = token).
  { rewrite Hrefresh. unfold refreshAccessToken. fold token.
    rewrite Htoken. reflexivity. }
  rewrite api_step, Hfirst, H401, Hunmarked. cbv zeta.
  rewrite Hresult, Htoken. fold retried.
  rewrite api_marked by reflexivity. rewrite Hsecond. simpl.
  split; [reflexivity |].
  split.
  { rewrite Hrefresh. unfold refreshAccessToken. fold token. rewrite Htoken.
    destruct (truthy (decodeToken token ||| VNull)); reflexivity. }
  split; [apply last_snoc |].
  split; [apply lookup_insert_eq |].
  split; [intros h Hh; apply lookup_insert_ne; congruence |].
  split; [reflexivity |].
  split.
  - rewrite refresh_calls_app, refresh_sends_one. simpl.
    rewrite refresh_calls_app. simpl. lia.
  - rewrite request_count_app, refresh_no_request. simpl.
    rewrite request_count_app. simpl. lia.
Qed.

(** X16: a call through the intercepted instance sends its request once or
    twice, never more. *)
Theorem interceptor_sends_at_most_twice (n : nat) (c : Config) (w : World) :
  (S (request_count (log w))
   <= request_count (log (fst (api srv refresh_ans logout_ans n c w)))
   <= S (S (request_count (log w))))%nat.
Proof.
  assert (Hreq : request_count (log (emit (Request c) w))
                 = S (request_count (log w))).
  { simpl. rewrite request_count_app. simpl. lia. }
  rewrite api_step.
  destruct (srv n c) as [res | e]; [simpl fst; lia |].
  destruct (status_is_401 e && negb (_retry c)); [| simpl fst; lia].
  cbv zeta. destruct (truthy _).
  - rewrite api_marked by reflexivity. simpl fst. simpl log.
    rewrite request_count_app, refresh_no_request, Hreq. simpl. lia.
  - simpl fst. rewrite refresh_no_request, Hreq. lia.
Qed.

End Requests.

End Further.

(** * The properties at work on the reference platform *)

#[local] Existing Instance Reference.platform.

Lemma login_not_approved_witness :
  isApproved (data pending_profile) = false
  /\ snd (login (env := Reference.platform) scenario_credentials (Ok pending_profile) fresh)
     = Rejected (new_Error (VStr "Not approved yet")).
Proof.
  split; [reflexivity |].
  apply (login_not_approved (env := Reference.platform)
           scenario_credentials pending_profile fresh).
  reflexivity.
Defined.

Lemma refresh_undecodable_keeps_user_witness :
  let r := refreshAccessToken (env := Reference.platform)
             (Ok (token_response "abc")) (Ok (token_response "")) 
             (fst (login (env := Reference.platform)
                     scenario_credentials (Ok scenario_response) fresh)) in
  snd r = VStr "abc" /\ user (session (state (fst r))) = scenario_profile.
Proof.
  pose proof (refresh_undecodable_keeps_user (env := Reference.platform)
    (token_response "abc") (Ok (token_response ""))
    (fst (login (env := Reference.platform)
            scenario_credentials (Ok scenario_response) fresh))
    eq_refl eq_refl) as (Hres & _ & _ & Huser & _).
  split; [exact Hres | exact Huser].
Defined.

Lemma one_refresh_per_request_witness :
  snd (api (env := Reference.platform) always_401
         (Ok (token_response "t2")) (Fail network_error) 0 courses_request signed_in)
  = Rejected {| error := unauthorized;
                config := with_authorization (VStr "t2") (mark_retry courses_request) |}
  /\ refresh_calls
       (log (fst (api (env := Reference.platform) always_401
                    (Ok (token_response "t2")) (Fail network_error)
                    0 courses_request signed_in)))
     = S (refresh_calls (log signed_in)).
Proof.
  destruct (one_refresh_per_request (env := Reference.platform) always_401
              (Ok (token_response "t2")) (Fail network_error)
              0 courses_request signed_in) as (_ & _ & Hscenario & _).
  apply (Hscenario unauthorized unauthorized (token_response "t2")); reflexivity.
Defined.

Lemma session_pairing_witness :
  truthy (accessToken (session (state signed_in))) = true
  /\ truthy (user (session (state signed_in))) = true.
Proof.
  destruct (session_pairing (env := Reference.platform))
    as (_ & _ & _ & Hlogin & _).
  apply (Hlogin scenario_credentials (Ok scenario_response) fresh
           (data scenario_response)); reflexivity.
Defined.

Lemma approved_iff_is_active_witness : isApproved (data empty_response) = false.
Proof.
  destruct (approved_iff_is_active (data empty_response)) as [_ Habsent].
  apply Habsent; reflexivity.
Defined.

Lemma refresh_without_token_logs_out_witness :
  no_token (Ok empty_response) = true
  /\ isAuthenticated
       (session (state (fst (refreshAccessToken (env := Reference.platform)
                               (Ok empty_response) (Fail network_error) signed_in))))
     = false
  /\ localStorage (fst (refreshAccessToken (env := Reference.platform)
                          (Ok empty_response) (Fail network_error) signed_in))
     = ∅.
Proof.
  split; [reflexivity |].
  destruct (refresh_without_token_logs_out (env := Reference.platform)
              (Ok empty_response) (Fail network_error) signed_in eq_refl)
    as (_ & _ & _ & Hauth & Hstorage).
  split; [exact Hauth | exact Hstorage].
Defined.

Lemma login_save_then_load_witness :
  exists w',
    mount (env := Reference.platform) (localStorage signed_in) = Some w'
    /\ session (state w') = session (state signed_in)
    /\ loading (state w') = false.
Proof.
  apply (login_save_then_load (env := Reference.platform)
           scenario_credentials scenario_response fresh "t1").
  - reflexivity.
  - reflexivity.
  - discriminate.
  - left. exists "student". split; [reflexivity | discriminate].
  - left. exists "a". split; [reflexivity | discriminate].
  - vm_compute. discriminate.
  - vm_compute. reflexivity.
Defined.

(** * Where the specification and the code part *)

(** C1: when the retried request is answered another 401 than the first
    one, the caller gets the error of the retry, not the original error;
    one refresh was made. *)
Lemma retry_error_replaces_original :
  let r := api expired_then_revoked (Ok (token_response "t2")) (Fail network_error)
             0 courses_request signed_in in
  snd r = Rejected {| error := revoked;
                      config := with_authorization (VStr "t2")
                                  (mark_retry courses_request) |}
  /\ (forall cfg, snd r <> Rejected {| error := unauthorized; config := cfg |})
  /\ refresh_calls (log (fst r)) = S (refresh_calls (log signed_in)).
Proof.
  cbv zeta. split; [vm_compute; reflexivity |].
  split; [| vm_compute; reflexivity].
  intros cfg Heq.
  assert (Herror : revoked = unauthorized).
  { transitivity (error {| error := unauthorized; config := cfg |});
      [| reflexivity].
    apply (f_equal (fun r => match r with
                             | Rejected x => error x
                             | Fulfilled _ => revoked
                             end)) in Heq.
    exact Heq. }
  discriminate Herror.
Qed.

(** C2: after a logout whose request did not reach the server, a refresh
    that is answered a token which is not a JWT leaves the session with an
    [accessToken] and no [user]. *)
Lemma refresh_token_without_user :
  let w := fst (refreshAccessToken (Ok (token_response "abc")) (Fail network_error)
                  (logout (Fail network_error) signed_in)) in
  accessToken (session (state w)) = VStr "abc"
  /\ user (session (state w)) = VNull
  /\ ~ paired (session (state w)).
Proof.
  split; [reflexivity |]. split; [reflexivity |].
  vm_compute. discriminate.
Qed.

(** C8: when the server sends both a detail and a message, [signUp] raises
    the message, not the detail. *)
Lemma signUp_prefers_message :
  snd (signUp signup_form (Fail conflict) fresh)
  = Rejected (new_Error (VStr "Bad Request"))
  /\ snd (signUp signup_form (Fail conflict) fresh)
     <> Rejected (new_Error (detail_first "Signup failed" conflict)).
Proof.
  split; [reflexivity |].
  vm_compute. intros Heq. discriminate Heq.
Qed.

(** C9: the save of [login] does not overwrite all four fields.  After the
    scenario login, a login whose profile has no [username] sets [userName]
    to [null] in the state and leaves the [userName] of the previous session
    in storage; the next process reads it back, so the session it rebuilds
    is not the one that was saved. *)
Lemma stale_userName_after_login :
  exists w',
    mount (env := Reference.platform) (localStorage signed_in_again) = Some w'
    /\ userName (session (state signed_in_again)) = VNull
    /\ userName (session (state w')) = VStr "a"
    /\ session (state w') <> session (state signed_in_again).
Proof.
  eexists. split; [vm_compute; reflexivity |].
  split; [reflexivity |]. split; [reflexivity |].
  vm_compute. intros Heq. discriminate Heq.
Qed.

(** * The further properties at work *)

Lemma unsuccessful_calls_change_nothing_witness :
  state (fst (login scenario_credentials (Fail network_error) signed_in))
  = state signed_in
  /\ localStorage (fst (login scenario_credentials (Fail network_error) signed_in))
     = localStorage signed_in.
Proof.
  destruct (unsuccessful_calls_change_nothing (env := Reference.platform))
    as [_ Hlogin].
  apply (Hlogin scenario_credentials (Fail network_error) signed_in
           (new_Error (VStr "Network Error"))).
  reflexivity.
Defined.

Lemma login_session_from_response_witness :
  session (state (fst (login teacher_credentials (Ok nameless_response) fresh)))
  = session (state (fst (login teacher_credentials (Ok nameless_response) signed_in)))
  /\ role (session (state (fst (login teacher_credentials (Ok nameless_response) fresh))))
     = first_available
         [get (get (data nameless_response) "user") "role";
          roleParam teacher_credentials; VNull].
Proof.
  apply (login_session_from_response (env := Reference.platform)
           teacher_credentials nameless_response fresh signed_in).
  reflexivity.
Defined.

Lemma login_storage_frame_witness :
  localStorage signed_in_again !! "accessToken" = Some "t2"
  /\ is_Some (localStorage signed_in_again !! "userName").
Proof.
  destruct (login_storage_frame (env := Reference.platform)
              teacher_credentials nameless_response signed_in eq_refl)
    as (Htoken & _ & _ & Hkept).
  split; [exact Htoken |].
  apply (Hkept "userName"). eexists. reflexivity.
Defined.

Lemma login_message_of_detail_list_witness :
  exists e,
    snd (login scenario_credentials (Fail validation_error) fresh) = Rejected e
    /\ message e = "[object Object],[object Object]".
Proof.
  destruct (login_message_of_detail_list (env := Reference.platform)
              scenario_credentials validation_error fresh _ eq_refl)
    as [Hrejected Hmessage].
  eexists. split; [exact Hrejected |]. exact (Hmessage eq_refl).
Defined.

Lemma logout_asks_server_iff_role_known_witness :
  log (logout (Fail network_error) signed_in)
  = (log signed_in ++ clearing
       ++ [Post logout_url VUndefined; Navigate "/login"])%list.
Proof.
  destruct (logout_asks_server_iff_role_known (env := Reference.platform)
              (Fail network_error) signed_in) as [Hknown _].
  apply Hknown. right. reflexivity.
Defined.

Lemma refresh_replaces_user_by_claims_witness :
  let r := refreshAccessToken (Ok (token_response jwt)) (Fail network_error)
             signed_in in
  user (session (state (fst r))) = jwt_claims
  /\ userName (session (state (fst r))) = VStr "a"
  /\ isAuthenticated (session (state (fst r))) = true.
Proof.
  destruct (refresh_replaces_user_by_claims (env := Reference.platform)
              (token_response jwt) (Fail network_error) signed_in jwt_claims)
    as (_ & Hsession & _ & _ & _ & Hauth & _);
    [reflexivity | vm_compute; reflexivity | reflexivity |].
  cbv zeta. rewrite Hsession. split; [reflexivity |].
  split; [reflexivity |]. rewrite <- Hsession. exact Hauth.
Defined.

Lemma tokenless_login_authenticates_after_reload_witness :
  isAuthenticated
    (session (state (fst (login scenario_credentials (Ok tokenless_response) fresh))))
  = false
  /\ exists w',
       mount (localStorage
                (fst (login scenario_credentials (Ok tokenless_response) fresh)))
       = Some w'
       /\ accessToken (session (state w')) = VStr "undefined"
       /\ isAuthenticated (session (state w')) = true.
Proof.
  apply (tokenless_login_authenticates_after_reload (env := Reference.platform)
           scenario_credentials tokenless_response fresh).
  - reflexivity.
  - reflexivity.
  - vm_compute. discriminate.
  - vm_compute. reflexivity.
Defined.

Lemma interceptor_passes_other_answers_witness :
  api (fun _ _ => Fail forbidden) (Ok (token_response "t2")) (Fail network_error)
    0 courses_request signed_in
  = (emit (Request courses_request) signed_in,
     Rejected {| error := forbidden; config := courses_request |}).
Proof.
  destruct (interceptor_passes_other_answers (env := Reference.platform)
              (fun _ _ => Fail forbidden) (Ok (token_response "t2"))
              (Fail network_error) 0 courses_request signed_in) as [_ Hother].
  apply Hother; reflexivity.
Defined.

Lemma interceptor_retries_with_new_token_witness :
  let r := api expired_once (Ok (token_response "t2")) (Fail network_error)
             0 courses_request signed_in in
  snd r = Fulfilled {| status := 200; data := VArr [] |}
  /\ accessToken (session (state (fst r))) = VStr "t2".
Proof.
  destruct (interceptor_retries_with_new_token (env := Reference.platform)
              expired_once (Ok (token_response "t2")) (Fail network_error)
              0 courses_request signed_in unauthorized (token_response "t2")
              {| status := 200; data := VArr [] |})
    as (Hanswer & Htoken & _); try reflexivity.
  split; [exact Hanswer | exact Htoken].
Defined.
